(** * check_prs_contains_and_comment.py: a shallow embedding and its properties

    The script resolves a GitHub token, opens a repository, walks over its
    pull requests, asks the host whether the target branch already contains
    each pull request's head commit and, when it does, posts a comment.

    The embedding follows [scripts/check_prs_contains_and_comment.py]
    function by function.  Python's effects are explicit:
    - standard output and standard error are lists of printed lines,
    - the remote host is an oracle over an abstract world [W]; every call
      to it is appended, with its answer, to a network log,
    - exceptions are results of a small state-and-error monad, in which
      [sys.exit] raises [SystemExit], which [except Exception] lets through. *)

From Stdlib Require Import ZArith List Lia.
From stdpp Require Import base strings gmap list pretty.

Open Scope string_scope.
Open Scope list_scope.

(** ** Python values *)

Module Py.

(** Truth value of an [Optional[str]]: [None] and the empty string are
    false, every other string is true. *)
Definition truthy (o : option string) : bool :=
  match o with
  | None => false
  | Some s => negb (String.eqb s "")
  end.

(** [a or b] on [Optional[str]]; [b] is only looked at when [a] is false. *)
Definition or_else (a b : option string) : option string :=
  if truthy a then a else b.

(** [x in (c1, c2, ...)] on strings: equality against each member in turn. *)
Definition str_in (x : string) (members : list string) : bool :=
  existsb (String.eqb x) members.
Global Arguments str_in : simpl never.

(** [str(True)] and [str(False)], as an f-string renders a [bool]. *)
Definition str_bool (b : bool) : string :=
  if b then "True" else "False".

(** [str(n)] of an [int]: decimal digits, with a leading minus sign
    below zero. *)
Definition str_int (z : Z) : string := pretty z.

(** The same for a counter that only ever counts up from zero. *)
Definition str_count (n : nat) : string := pretty n.

(** What can be raised: an instance of [Exception] (shown by its [str])
    or [SystemExit] with its status.  [SystemExit] derives from
    [BaseException], not from [Exception]. *)
Inductive exn : Type :=
| Exception (msg : string)
| SystemExit (code : Z).

End Py.

Export Py.

(** ** The process environment and the token lookup *)

Definition candidate_env_vars : list string :=
  [ "GITHUB_TOKEN";
    "GH_TOKEN";
    "GITHUB_PAT";
    "TOKEN" ].

(** The [for env_var in ...] loop of [read_token_from_environment]:
    [os.environ.get] is the map lookup, the first true value is returned,
    falling off the end returns [None]. *)
Fixpoint for_env_var (environ : gmap string string) (vars : list string)
  : option string :=
  match vars with
  | [] => None
  | env_var :: rest =>
      let token := environ !! env_var in
      if truthy token then token else for_env_var environ rest
  end.

Definition read_token_from_environment (environ : gmap string string)
  : option string :=
  for_env_var environ candidate_env_vars.

(** ** The remote host *)

(** [pr.base] and [pr.head]. *)
Record PullRequestPart : Type := {
  ref : string;
  sha : string
}.

Record PullRequest : Type := {
  number : Z;
  title : string;
  base : PullRequestPart;
  head : PullRequestPart
}.

(** [Github(login_or_token=token)]: the client only stores what it is
    given, an [Optional[str]]. *)
Record Github : Type := {
  login_or_token : option string
}.

Record Repository : Type := {
  client : Github;
  full_name : string
}.

(** Answer of the host to one call: the call raised an [Exception] with
    this [str], or returned. *)
Inductive ApiResult (A : Type) : Type :=
| ApiError (msg : string)
| ApiOk (a : A).
Arguments ApiError {A} msg.
Arguments ApiOk {A} a.

(** What iterating [repo.get_pulls(...)] produces: the pull requests it
    yields, in order, and whether the iteration then stops normally or
    raises (a page that cannot be fetched). *)
Record Listing : Type := {
  yielded : list PullRequest;
  broke : option string
}.

Inductive NetCall : Type :=
| CallGetRepo (gh : Github) (name : string) (r : ApiResult unit)
| CallGetPulls (repo : Repository) (state : string)
| CallCompare (repo : Repository) (base_ head_ : string) (r : ApiResult string)
| CallCreateIssueComment (pr : PullRequest) (body : string) (r : ApiResult unit).

(** The host as an oracle: each call sees the current world and may
    change it. *)
Record Host (W : Type) : Type := {
  host_get_repo : W -> Github -> string -> W * ApiResult unit;
  host_get_pulls : W -> Repository -> string -> W * Listing;
  host_compare : W -> Repository -> string -> string -> W * ApiResult string;
  host_create_issue_comment : W -> PullRequest -> string -> W * ApiResult unit
}.
Arguments host_get_repo {W} _ _ _ _.
Arguments host_get_pulls {W} _ _ _ _.
Arguments host_compare {W} _ _ _ _ _.
Arguments host_create_issue_comment {W} _ _ _ _.

(** ** Process state and the monad of the script *)

Record State (W : Type) : Type := {
  world : W;
  stdout : list string;
  stderr : list string;
  network : list NetCall
}.
Arguments world {W} _.
Arguments stdout {W} _.
Arguments stderr {W} _.
Arguments network {W} _.

Definition M (W A : Type) : Type := State W -> (exn + A) * State W.

Definition ret {W A} (a : A) : M W A := fun st => (inr a, st).

Definition bind {W A B} (m : M W A) (k : A -> M W B) : M W B :=
  fun st =>
    match m st with
    | (inr a, st') => k a st'
    | (inl e, st') => (inl e, st')
    end.

Notation "'do' x <- m ; k" := (bind m (fun x => k))
  (at level 10, x name, m at level 100, k at level 200).
Notation "'do' ' pat <- m ; k" := (bind m (fun x => match x with pat => k end))
  (at level 10, pat pattern, m at level 100, k at level 200).
Notation "m ;;; k" := (bind m (fun _ => k))
  (at level 100, k at level 200, right associativity).

Definition raise {W A} (e : exn) : M W A := fun st => (inl e, st).

(** [sys.exit(code)]. *)
Definition sys_exit {W A} (code : Z) : M W A := raise (SystemExit code).

(** [try: m  except Exception as e: ...]: an [Exception] raised by [m] is
    handed to the handler as its [str]; [SystemExit] passes through.
    Whatever [m] printed or sent before raising stays. *)
Definition try_except {W A} (m : M W A) : M W (string + A) :=
  fun st =>
    match m st with
    | (inr a, st') => (inr (inr a), st')
    | (inl (Exception e), st') => (inr (inl e), st')
    | (inl (SystemExit c), st') => (inl (SystemExit c), st')
    end.

(** [print(line)]. *)
Definition print {W} (line : string) : M W unit :=
  fun st =>
    (inr tt, {| world := world st; stdout := stdout st ++ [line];
                stderr := stderr st; network := network st |}).

(** [print(line, file=sys.stderr)]. *)
Definition print_stderr {W} (line : string) : M W unit :=
  fun st =>
    (inr tt, {| world := world st; stdout := stdout st;
                stderr := stderr st ++ [line]; network := network st |}).

(** One round trip to the host: the world moves on and the call is logged. *)
Definition sent {W} (st : State W) (w : W) (c : NetCall) : State W :=
  {| world := w; stdout := stdout st; stderr := stderr st;
     network := network st ++ [c] |}.

Definition of_api {W A} (r : ApiResult A) : M W A :=
  match r with
  | ApiError msg => raise (Exception msg)
  | ApiOk a => ret a
  end.

(** ** The script *)

(** The parsed command line: three positionals, [--state] (argparse keeps
    it within open, closed, all; default open) and [--token] ([None] when
    the option is not given). *)
Record Args : Type := {
  arg_repo : string;
  arg_branch : string;
  arg_status : string;
  arg_state : string;
  arg_token : option string
}.

Definition no_token_message : string :=
  "ERROR: No GitHub token provided. Set GITHUB_TOKEN (or GH_TOKEN) or pass --token.".

Definition repo_error_message (name fetch_repo_error : string) : string :=
  "ERROR: Could not access repo '" +:+ name +:+ "': " +:+ fetch_repo_error.

Definition compare_failed_message (pr : PullRequest) (compare_error : string)
  : string :=
  "PR #" +:+ str_int (number pr) +:+ ": compare failed ["
    +:+ ref (base pr) +:+ " <- " +:+ ref (head pr) +:+ "]: " +:+ compare_error.

Definition comment_failed_message (pr : PullRequest) (comment_error : string)
  : string :=
  "PR #" +:+ str_int (number pr)
    +:+ ": contains all commits, but commenting failed: " +:+ comment_error.

Definition done_line (processed_count commented_count : nat) : string :=
  "Done. Processed " +:+ str_count processed_count
    +:+ " PR(s); commented on " +:+ str_count commented_count +:+ " PR(s).".

Section Script.

Context {W : Type}.

(** The host the run talks to. *)
Variable host : Host W.

(** Python's [repr] on [str], used by the [!r] conversion of the
    per-PR line.  It is the interpreter's, not the script's: quotes
    around the text, with escapes where the text needs them. *)
Variable repr : string -> string.

(** The process environment, [os.environ]. *)
Variable environ : gmap string string.

Definition summary_line (pr : PullRequest) (is_contained : bool)
    (result : string) : string :=
  "PR #" +:+ str_int (number pr) +:+ " [" +:+ ref (base pr) +:+ " <- "
    +:+ ref (head pr) +:+ "] " +:+ repr (title pr) +:+ ": "
    +:+ "contained=" +:+ str_bool is_contained +:+ " -> " +:+ result.

(** *** Calls to the host *)

Definition get_repo (gh : Github) (name : string) : M W Repository :=
  fun st =>
    let '(w, r) := host_get_repo host (world st) gh name in
    (do _ <- of_api r; ret {| client := gh; full_name := name |})
      (sent st w (CallGetRepo gh name r)).

Definition get_pulls (repo : Repository) (state : string) : M W Listing :=
  fun st =>
    let '(w, l) := host_get_pulls host (world st) repo state in
    (inr l, sent st w (CallGetPulls repo state)).

(** [repo.compare(base=..., head=...).status]. *)
Definition compare_status (repo : Repository) (base_ head_ : string)
  : M W string :=
  fun st =>
    let '(w, r) := host_compare host (world st) repo base_ head_ in
    of_api r (sent st w (CallCompare repo base_ head_ r)).

Definition create_issue_comment (pr : PullRequest) (body : string)
  : M W unit :=
  fun st =>
    let '(w, r) := host_create_issue_comment host (world st) pr body in
    of_api r (sent st w (CallCreateIssueComment pr body r)).

(** *** [get_github_client] *)

Definition get_github_client (explicit_token : option string) : M W Github :=
  let token := or_else explicit_token (read_token_from_environment environ) in
  (if negb (truthy token)
   then print_stderr no_token_message;;; sys_exit 2
   else ret tt);;;
  ret {| login_or_token := token |}.

(** *** [contains_all_pr_commits] *)

Definition contains_all_pr_commits (repo : Repository)
    (target_branch : string) (pr : PullRequest) : M W bool :=
  do status <- compare_status repo target_branch (sha (head pr));
  ret (str_in status ["behind"; "identical"]).

(** *** [main] *)

(** The body of [for pr in pulls], from the two counters before the
    pull request to the two counters after it.  The first branch is
    the [continue]. *)
Definition loop_body (repo : Repository) (args : Args)
    (counts : nat * nat) (pr : PullRequest) : M W (nat * nat) :=
  let processed_count := S (fst counts) in
  let commented_count := snd counts in
  do compared <- try_except (contains_all_pr_commits repo (arg_branch args) pr);
  match compared with
  | inl compare_error =>
      print_stderr (compare_failed_message pr compare_error);;;
      ret (processed_count, commented_count)
  | inr is_contained =>
      do '(commented_count, result) <-
        (if is_contained then
           do posted <- try_except (create_issue_comment pr (arg_status args));
           match posted with
           | inr _ => ret (S commented_count, "commented")
           | inl comment_error =>
               print_stderr (comment_failed_message pr comment_error);;;
               ret (commented_count, "comment_failed")
           end
         else ret (commented_count, "not_contained"));
      print (summary_line pr is_contained result);;;
      ret (processed_count, commented_count)
  end.

Fixpoint for_pr_in (repo : Repository) (args : Args)
    (prs : list PullRequest) (counts : nat * nat) : M W (nat * nat) :=
  match prs with
  | [] => ret counts
  | pr :: rest =>
      do counts' <- loop_body repo args counts pr;
      for_pr_in repo args rest counts'
  end.

(** The whole [for] statement: the yielded pull requests, then the end
    of the iteration, which is where a broken listing raises. *)
Definition for_pr_in_pulls (repo : Repository) (args : Args)
    (pulls : Listing) (counts : nat * nat) : M W (nat * nat) :=
  do counts' <- for_pr_in repo args (yielded pulls) counts;
  match broke pulls with
  | Some listing_error => raise (Exception listing_error)
  | None => ret counts'
  end.

Definition main (args : Args) : M W unit :=
  do gh <- get_github_client (arg_token args);
  do fetched <- try_except (get_repo gh (arg_repo args));
  match fetched with
  | inl fetch_repo_error =>
      print_stderr (repo_error_message (arg_repo args) fetch_repo_error);;;
      sys_exit 2
  | inr repo =>
      print ("Repository: " +:+ arg_repo args);;;
      print ("Target branch: " +:+ arg_branch args);;;
      print ("PR state: " +:+ arg_state args);;;
      do pulls <- get_pulls repo (arg_state args);
      do '(processed_count, commented_count) <-
        for_pr_in_pulls repo args pulls (0, 0);
      print (done_line processed_count commented_count)
  end.

(** Exit status of the process for a result of [main]: 0 on return, the
    status of [SystemExit], 1 for an exception nobody caught. *)
Definition exit_status (r : exn + unit) : Z :=
  match r with
  | inr _ => 0
  | inl (SystemExit code) => code
  | inl (Exception _) => 1
  end.

(** A process that has not printed or sent anything yet. *)
Definition fresh (w : W) : State W :=
  {| world := w; stdout := []; stderr := []; network := [] |}.

End Script.

(** ** What a run shows of each pull request

    One entry per pull request of the listing: the host's answer to the
    comparison, and its answer to the comment when one was sent.  These
    definitions follow the specification's words, not the loop. *)

Record Observed : Type := {
  obs_pr : PullRequest;
  obs_compare : ApiResult string;
  obs_comment : option (ApiResult unit)
}.

(** Classification succeeded with contained = true: the comparison
    returned, with status identical or behind. *)
Definition classified_contained (o : Observed) : bool :=
  match obs_compare o with
  | ApiOk status => String.eqb status "identical" || String.eqb status "behind"
  | ApiError _ => false
  end.

(** The commenter is only invoked for pull requests classified as
    contained, and it is invoked for each of them. *)
Definition comment_iff_contained (o : Observed) : Prop :=
  is_Some (obs_comment o) <-> classified_contained o = true.

(** Classification succeeded as contained and the comment was posted. *)
Definition commented (o : Observed) : bool :=
  classified_contained o &&
  match obs_comment o with
  | Some (ApiOk _) => true
  | _ => false
  end.

(** The calls to the host made for one pull request, in order. *)
Definition obs_calls (repo : Repository) (args : Args) (o : Observed)
  : list NetCall :=
  CallCompare repo (arg_branch args) (sha (head (obs_pr o))) (obs_compare o) ::
  match obs_comment o with
  | Some r => [CallCreateIssueComment (obs_pr o) (arg_status args) r]
  | None => []
  end.

(** The outcome of a pull request whose comparison returned. *)
Definition obs_outcome (o : Observed) : option string :=
  match obs_compare o, obs_comment o with
  | ApiError _, _ => None
  | ApiOk _, None => Some "not_contained"
  | ApiOk _, Some (ApiOk _) => Some "commented"
  | ApiOk _, Some (ApiError _) => Some "comment_failed"
  end.

Definition obs_stdout (repr : string -> string) (o : Observed) : list string :=
  match obs_outcome o with
  | Some outcome =>
      [summary_line repr (obs_pr o) (classified_contained o) outcome]
  | None => []
  end.

Definition obs_stderr (o : Observed) : list string :=
  match obs_compare o, obs_comment o with
  | ApiError e, _ => [compare_failed_message (obs_pr o) e]
  | ApiOk _, Some (ApiError e) => [comment_failed_message (obs_pr o) e]
  | ApiOk _, _ => []
  end.

Definition header (args : Args) : list string :=
  [ "Repository: " +:+ arg_repo args;
    "Target branch: " +:+ arg_branch args;
    "PR state: " +:+ arg_state args ].

(** The command line with [--token] left out. *)
Definition without_token (args : Args) : Args :=
  {| arg_repo := arg_repo args; arg_branch := arg_branch args;
     arg_status := arg_status args; arg_state := arg_state args;
     arg_token := None |}.

(** A run of [main] from [st] reaches the loop over the pull requests: a
    token is found, the host opens the repository as [repo] and its
    listing is [pulls], which leaves the host in world [w]. *)
Definition reaches_loop {W : Type} (host : Host W)
    (environ : gmap string string) (args : Args) (st : State W)
    (repo : Repository) (w : W) (pulls : Listing) : Prop :=
  let token := or_else (arg_token args) (read_token_from_environment environ) in
  let gh := {| login_or_token := token |} in
  truthy token = true /\
  repo = {| client := gh; full_name := arg_repo args |} /\
  exists w1 : W,
    host_get_repo host (world st) gh (arg_repo args) = (w1, ApiOk tt) /\
    host_get_pulls host w1 repo (arg_state args) = (w, pulls).

(** The state of a process that stopped for want of a token. *)
Definition refused {W : Type} (st : State W) : State W :=
  {| world := world st; stdout := stdout st;
     stderr := stderr st ++ [no_token_message]; network := network st |}.

(** ** A sample run

    The scenario of the specification, with a fourth pull request whose
    comparison fails: repo [acme/widgets], branch [release/qa], state
    [open].  The sample host answers a comparison with the head commit's
    name taken as the status (and fails on the commit [gone]); it refuses
    comments on pull request 1. *)

Module Sample.

Definition pr (n : Z) (name head_ref head_sha : string) : PullRequest :=
  {| number := n; title := name;
     base := {| ref := "main"; sha := "0a0a" |};
     head := {| ref := head_ref; sha := head_sha |} |}.

Definition pr1 : PullRequest := pr 1 "Add login" "feature/login" "identical".
Definition pr2 : PullRequest := pr 2 "Fix typo" "fix/typo" "ahead".
Definition pr3 : PullRequest := pr 3 "Bump deps" "chore/deps" "behind".
Definition pr4 : PullRequest := pr 4 "Old work" "old/work" "gone".

Definition listing : Listing :=
  {| yielded := [pr1; pr2; pr3; pr4]; broke := None |}.

(** The world of the sample host counts the calls it has answered. *)
Definition host : Host nat := {|
  host_get_repo := fun w _ name =>
    (S w, if String.eqb name "acme/widgets" then ApiOk tt
          else ApiError "404 Not Found");
  host_get_pulls := fun w _ _ => (S w, listing);
  host_compare := fun w _ _ head_ =>
    (S w, if String.eqb head_ "gone" then ApiError "404 No common ancestor"
          else ApiOk head_);
  host_create_issue_comment := fun w p _ =>
    (S w, if Z.eqb (number p) 1 then ApiError "403 Forbidden" else ApiOk tt)
|}.

(** [repr] on the sample titles, which hold no quote, backslash or
    control character. *)
Definition repr (s : string) : string := "'" +:+ s +:+ "'".

Definition args (token : option string) : Args :=
  {| arg_repo := "acme/widgets"; arg_branch := "release/qa";
     arg_status := "in qa"; arg_state := "open"; arg_token := token |}.

Definition gh : Github := {| login_or_token := Some "s3cr3t" |}.

Definition repo : Repository :=
  {| client := gh; full_name := "acme/widgets" |}.

Definition environ : gmap string string := {[ "GH_TOKEN" := "s3cr3t" ]}.

(** The loop of the script on the sample host. *)
Definition loop (prs : list PullRequest) (counts : nat * nat)
  : M nat (nat * nat) :=
  for_pr_in host repr repo (args None) prs counts.

(** The state of the loop after pull request 1 alone. *)
Definition after_pr1 : State nat := snd (loop [pr1] (0, 0) (fresh 0)).

(** The state of the loop after pull request 2 alone. *)
Definition after_pr2 : State nat := snd (loop [pr2] (0, 0) (fresh 0)).

(** Environments for the token lookup. *)
Definition only_github_token : gmap string string :=
  {[ "GITHUB_TOKEN" := "from-env" ]}.

Definition only_empty_gh_token : gmap string string :=
  {[ "GH_TOKEN" := "" ]}.

End Sample.

(** ** Reading the network log

    Projections of a list of calls, for the statements about what a run
    sends and what it never sends. *)

(** The comparisons asked for, in order: repository, base and head. *)
Definition compare_requests (calls : list NetCall)
  : list (Repository * string * string) :=
  flat_map
    (fun call : NetCall =>
       match call with
       | CallCompare repo base_ head_ _ => [(repo, base_, head_)]
       | _ => []
       end) calls.

(** The comments sent, in order: pull request and body. *)
Definition comment_requests (calls : list NetCall)
  : list (PullRequest * string) :=
  flat_map
    (fun call : NetCall =>
       match call with
       | CallCreateIssueComment pr body _ => [(pr, body)]
       | _ => []
       end) calls.

(** A comparison that returned a status. *)
Definition is_returned_compare (call : NetCall) : bool :=
  match call with
  | CallCompare _ _ _ (ApiOk _) => true
  | _ => false
  end.

(** A comment that the host accepted. *)
Definition is_returned_comment (call : NetCall) : bool :=
  match call with
  | CallCreateIssueComment _ _ (ApiOk _) => true
  | _ => false
  end.

(** A comparison or a comment that raised. *)
Definition is_failed_pr_call (call : NetCall) : bool :=
  match call with
  | CallCompare _ _ _ (ApiError _) => true
  | CallCreateIssueComment _ _ (ApiError _) => true
  | _ => false
  end.

(** ** Further sample runs *)

Module Edge.

(** A repository the sample host does not know. *)
Definition unknown_repo_args : Args :=
  {| arg_repo := "acme/gadgets"; arg_branch := "release/qa";
     arg_status := "in qa"; arg_state := "open"; arg_token := None |}.

(** A host whose repository has no pull request in the requested state. *)
Definition quiet_host : Host nat := {|
  host_get_repo := fun w _ _ => (S w, ApiOk tt);
  host_get_pulls := fun w _ _ => (S w, {| yielded := []; broke := None |});
  host_compare := fun w _ _ _ => (S w, ApiError "unexpected");
  host_create_issue_comment := fun w _ _ => (S w, ApiError "unexpected")
|}.

(** A host whose listing yields two pull requests and then cannot fetch
    the next page. *)
Definition broken_listing : Listing :=
  {| yielded := [Sample.pr2; Sample.pr3];
     broke := Some "502 Bad Gateway" |}.

Definition broken_host : Host nat := {|
  host_get_repo := host_get_repo Sample.host;
  host_get_pulls := fun w _ _ => (S w, broken_listing);
  host_compare := host_compare Sample.host;
  host_create_issue_comment := host_create_issue_comment Sample.host
|}.

(** The sample environment with variables the script does not read. *)
Definition noisy_environ : gmap string string :=
  <[ "HOME" := "/root" ]> (<[ "GITHUB_TOKENS" := "decoy" ]> Sample.environ).

End Edge.

(** * Properties *)

(** ** Python truth values *)

Lemma truthy_Some (s : string) : truthy (Some s) = true <-> s <> "".
Proof.
  simpl. rewrite negb_true_iff. split.
  - intros H ->. discriminate.
  - intros H. destruct (String.eqb_spec s ""); congruence.
Qed.

Lemma truthy_true (o : option string) :
  truthy o = true <-> exists s, o = Some s /\ s <> "".
Proof.
  destruct o as [s|].
  - rewrite truthy_Some. split.
    + intros H. exists s. auto.
    + intros (s' & [= ->] & H). exact H.
  - simpl. split; [discriminate|]. intros (s & H & _). discriminate.
Qed.

Lemma truthy_false (o : option string) :
  truthy o = false <-> o = None \/ o = Some "".
Proof.
  destruct o as [s|]; simpl.
  - rewrite negb_false_iff. split.
    + intros H. right. f_equal. now apply String.eqb_eq.
    + intros [H|H]; [discriminate|]. injection H as ->. reflexivity.
  - split; auto.
Qed.

(** ** Token lookup in the environment *)

(** The loop over any list of names returns the value of the first name
    whose value is true. *)
Lemma for_env_var_Some (environ : gmap string string) (vars : list string)
    (t : string) :
  for_env_var environ vars = Some t <->
  exists (i : nat) (v : string),
    vars !! i = Some v /\ environ !! v = Some t /\ t <> "" /\
    forall (j : nat) (v' : string),
      j < i -> vars !! j = Some v' -> truthy (environ !! v') = false.
Proof.
  induction vars as [|v0 rest IH]; simpl.
  - split; [discriminate|]. intros (i & v & H & _). destruct i; discriminate.
  - destruct (truthy (environ !! v0)) eqn:Hv0.
    + split.
      * intros Ht. exists 0, v0. split; [reflexivity|].
        apply truthy_true in Hv0 as (s & Hs & Hne).
        rewrite Hs in Ht. injection Ht as <-.
        repeat split; auto. intros j v' Hj. lia.
      * intros (i & v & Hi & Hv & Hne & Hbefore). destruct i as [|i].
        -- injection Hi as ->.
           apply truthy_true in Hv0 as (s & Hs & _). congruence.
        -- specialize (Hbefore 0 v0 ltac:(lia) eq_refl). congruence.
    + rewrite IH. split.
      * intros (i & v & Hi & Hv & Hne & Hbefore).
        exists (S i), v. repeat split; auto.
        intros [|j] v' Hj Hv'.
        -- injection Hv' as <-. exact Hv0.
        -- apply (Hbefore j v'); [lia|exact Hv'].
      * intros (i & v & Hi & Hv & Hne & Hbefore). destruct i as [|i].
        -- injection Hi as ->. rewrite Hv in Hv0.
           apply truthy_false in Hv0 as [|[= ->]]; congruence.
        -- exists i, v. repeat split; auto.
           intros j v' Hj Hv'. apply (Hbefore (S j) v'); [lia|exact Hv'].
Qed.

Lemma for_env_var_None (environ : gmap string string) (vars : list string) :
  for_env_var environ vars = None <->
  forall v : string, v ∈ vars -> truthy (environ !! v) = false.
Proof.
  induction vars as [|v0 rest IH]; simpl.
  - split; [|reflexivity]. intros _ v Hv. inversion Hv.
  - destruct (truthy (environ !! v0)) eqn:Hv0.
    + split.
      * intros Hn. apply truthy_true in Hv0 as (s & Hs & _). congruence.
      * intros Hall. specialize (Hall v0 ltac:(left)). congruence.
    + rewrite IH. split.
      * intros Hall v Hv. inversion Hv; subst; auto.
      * intros Hall v Hv. apply Hall. now right.
Qed.

(** C4. With no explicit token, the lookup probes exactly GITHUB_TOKEN,
    GH_TOKEN, GITHUB_PAT, TOKEN, in this order: it returns [t] exactly
    when [t] is the non-empty value of one of them and every name before
    it in the list is unset or empty, and it finds no token exactly when
    all four are unset or empty. *)
Theorem read_token_from_environment_first_nonempty
    (environ : gmap string string) :
  candidate_env_vars = ["GITHUB_TOKEN"; "GH_TOKEN"; "GITHUB_PAT"; "TOKEN"] /\
  (forall t : string,
     read_token_from_environment environ = Some t <->
     exists (i : nat) (v : string),
       candidate_env_vars !! i = Some v /\
       environ !! v = Some t /\ t <> "" /\
       forall (j : nat) (v' : string),
         j < i -> candidate_env_vars !! j = Some v' ->
         environ !! v' = None \/ environ !! v' = Some "") /\
  (read_token_from_environment environ = None <->
   forall v : string,
     v ∈ candidate_env_vars ->
     environ !! v = None \/ environ !! v = Some "").
Proof.
  split; [reflexivity|]. split.
  - intros t. unfold read_token_from_environment. rewrite for_env_var_Some.
    split; intros (i & v & Hi & Hv & Hne & Hbefore); exists i, v;
      repeat split; auto; intros j v' Hj Hv'; apply truthy_false; eauto.
  - unfold read_token_from_environment. rewrite for_env_var_None.
    split; intros H v Hv; apply truthy_false; auto.
Qed.

(** ** The loop over the pull requests *)

Lemma str_in_behind_identical (status : string) :
  str_in status ["behind"; "identical"]
  = String.eqb status "identical" || String.eqb status "behind".
Proof.
  unfold str_in. simpl.
  destruct (String.eqb status "behind"), (String.eqb status "identical");
    reflexivity.
Qed.

Lemma str_in_behind_identical_true (status : string) :
  str_in status ["behind"; "identical"] = true <->
  status = "identical" \/ status = "behind".
Proof.
  rewrite str_in_behind_identical, orb_true_iff, !String.eqb_eq. tauto.
Qed.

Ltac run_script :=
  unfold loop_body, contains_all_pr_commits, compare_status,
    create_issue_comment, get_repo, get_pulls, try_except, bind, of_api,
    ret, raise, sys_exit, print, print_stderr, sent;
  simpl.

(** Unfolds what the specification says of an observation whose status
    test is the equation [H]. *)
Ltac observed_with H :=
  unfold commented, comment_iff_contained, obs_stdout, obs_stderr, obs_calls,
    obs_outcome, classified_contained;
  simpl; rewrite ?H; simpl.

Section Loop.

Context {W : Type}.
Variable host : Host W.
Variable repr : string -> string.
Variable repo : Repository.
Variable args : Args.

(** One turn of the loop always returns, with the first counter one
    higher, and what it printed and sent is what the specification
    says of some observation of this pull request. *)
Lemma loop_body_observed (counts : nat * nat) (pr : PullRequest)
    (st : State W) :
  exists (o : Observed) (st' : State W),
    loop_body host repr repo args counts pr st
    = (inr (S (fst counts), snd counts + (if commented o then 1 else 0)), st')
    /\ obs_pr o = pr
    /\ comment_iff_contained o
    /\ stdout st' = stdout st ++ obs_stdout repr o
    /\ stderr st' = stderr st ++ obs_stderr o
    /\ network st' = network st ++ obs_calls repo args o.
Proof.
  run_script.
  destruct (host_compare host (world st) repo (arg_branch args) (sha (head pr)))
    as [w1 [e|status]] eqn:Hcompare; simpl.
  - exists {| obs_pr := pr; obs_compare := ApiError e; obs_comment := None |}.
    eexists. split; [rewrite Nat.add_0_r; reflexivity|].
    unfold comment_iff_contained, obs_stdout, obs_stderr, obs_calls; simpl.
    rewrite app_nil_r.
    repeat split; auto; try (intros [? [=]]); discriminate.
  - rewrite str_in_behind_identical.
    destruct (String.eqb status "identical" || String.eqb status "behind")
      eqn:Hin; simpl.
    + destruct (host_create_issue_comment host w1 pr (arg_status args))
        as [w2 [e|[]]] eqn:Hcomment; simpl.
      * exists {| obs_pr := pr; obs_compare := ApiOk status;
                  obs_comment := Some (ApiError e) |}.
        eexists. observed_with Hin.
        split; [rewrite Nat.add_0_r; reflexivity|].
        rewrite <- app_assoc. repeat split; eauto.
      * exists {| obs_pr := pr; obs_compare := ApiOk status;
                  obs_comment := Some (ApiOk tt) |}.
        eexists. observed_with Hin.
        split; [rewrite Nat.add_1_r; reflexivity|].
        rewrite <- app_assoc, app_nil_r. repeat split; eauto.
    + exists {| obs_pr := pr; obs_compare := ApiOk status;
                obs_comment := None |}.
      eexists. observed_with Hin.
      split; [rewrite Nat.add_0_r; reflexivity|].
      rewrite app_nil_r.
      repeat split; auto; try (intros [? [=]]); discriminate.
Qed.

(** The loop over a list of pull requests always returns; it has then
    counted every one of them, and its traces are those of one
    observation per pull request, in the order of the list. *)
Lemma for_pr_in_observed (prs : list PullRequest) :
  forall (counts : nat * nat) (st : State W),
  exists (obs : list Observed) (st' : State W),
    for_pr_in host repr repo args prs counts st
    = (inr (fst counts + length prs,
            snd counts + length (List.filter commented obs)), st')
    /\ map obs_pr obs = prs
    /\ Forall comment_iff_contained obs
    /\ stdout st' = stdout st ++ flat_map (obs_stdout repr) obs
    /\ stderr st' = stderr st ++ flat_map obs_stderr obs
    /\ network st' = network st ++ flat_map (obs_calls repo args) obs.
Proof.
  induction prs as [|pr rest IH]; intros counts st.
  - exists [], st. simpl. rewrite !app_nil_r, !Nat.add_0_r.
    destruct counts. repeat split; auto.
  - destruct (loop_body_observed counts pr st)
      as (o & st1 & Hbody & Hpr & Hwf & Hout & Herr & Hnet).
    destruct (IH (S (fst counts), snd counts + (if commented o then 1 else 0)) st1)
      as (obs & st' & Hloop & Hprs & Hwfs & Hout' & Herr' & Hnet').
    exists (o :: obs), st'.
    split.
    { simpl for_pr_in. unfold bind at 1. rewrite Hbody, Hloop. simpl.
      do 2 f_equal. apply pair_equal_spec. split; [lia|].
      destruct (commented o); simpl; lia. }
    rewrite Hout', Herr', Hnet', Hout, Herr, Hnet, <- !app_assoc.
    repeat split; try reflexivity.
    + simpl. congruence.
    + constructor; assumption.
Qed.

(** Running the loop over [pre ++ post] is running it over [pre] and
    then, from the counters and the state reached, over [post]. *)
Lemma for_pr_in_app (pre post : list PullRequest) :
  forall (counts : nat * nat) (st : State W),
    for_pr_in host repr repo args (pre ++ post) counts st
    = bind (for_pr_in host repr repo args pre counts)
           (for_pr_in host repr repo args post) st.
Proof.
  induction pre as [|pr rest IH]; intros counts st; simpl.
  - reflexivity.
  - unfold bind.
    destruct (loop_body host repr repo args counts pr st) as [[e|counts'] st1].
    + reflexivity.
    + rewrite IH. reflexivity.
Qed.

(** The loop reads the branch and the status text of the command
    line, not its token. *)
Lemma for_pr_in_without_token (prs : list PullRequest) :
  forall (counts : nat * nat) (st : State W),
    for_pr_in host repr repo (without_token args) prs counts st
    = for_pr_in host repr repo args prs counts st.
Proof.
  induction prs as [|pr rest IH]; intros counts st; simpl.
  - reflexivity.
  - unfold bind.
    change (loop_body host repr repo (without_token args) counts pr st)
      with (loop_body host repr repo args counts pr st).
    destruct (loop_body host repr repo args counts pr st) as [[e|counts'] st1].
    + reflexivity.
    + apply IH.
Qed.

End Loop.

(** ** The client *)

Section Client.

Context {W : Type}.
Variable environ : gmap string string.

Lemma get_github_client_found (explicit_token : option string)
    (st : State W) :
  let token := or_else explicit_token (read_token_from_environment environ) in
  truthy token = true ->
  get_github_client environ explicit_token st
  = (inr {| login_or_token := token |}, st).
Proof.
  intros token Htoken. unfold get_github_client. fold token.
  rewrite Htoken. reflexivity.
Qed.

Lemma get_github_client_refused (explicit_token : option string)
    (st : State W) :
  truthy (or_else explicit_token (read_token_from_environment environ))
  = false ->
  get_github_client environ explicit_token st
  = (inl (SystemExit 2), refused st).
Proof.
  intros Htoken. unfold get_github_client. rewrite Htoken. reflexivity.
Qed.

Lemma read_token_truthy (t : string) :
  read_token_from_environment environ = Some t -> t <> "".
Proof.
  intros H. apply for_env_var_Some in H as (i & v & _ & _ & Hne & _).
  exact Hne.
Qed.

Lemma no_token_source (explicit_token : option string) :
  explicit_token = None \/ explicit_token = Some "" ->
  (forall v : string,
     v ∈ candidate_env_vars ->
     environ !! v = None \/ environ !! v = Some "") ->
  truthy (or_else explicit_token (read_token_from_environment environ))
  = false.
Proof.
  intros Hexplicit Henv. unfold or_else.
  apply truthy_false in Hexplicit. rewrite Hexplicit.
  replace (read_token_from_environment environ) with (@None string);
    [reflexivity|].
  symmetry. apply for_env_var_None. intros v Hv. apply truthy_false. auto.
Qed.

End Client.

(** C1. When the comparison with base = target branch and head = the pull
    request's head SHA returns a status, the classifier returns, its
    answer is true exactly for the statuses identical and behind, and it
    is false for ahead and diverged. *)
Theorem contains_all_pr_commits_by_status {W : Type} (host : Host W)
    (repo : Repository) (target_branch : string) (pr : PullRequest)
    (st : State W) (w : W) (status : string) :
  host_compare host (world st) repo target_branch (sha (head pr))
  = (w, ApiOk status) ->
  exists contained : bool,
    contains_all_pr_commits host repo target_branch pr st
    = (inr contained,
       sent st w (CallCompare repo target_branch (sha (head pr)) (ApiOk status)))
    /\ (contained = true <-> status = "identical" \/ status = "behind")
    /\ (status = "ahead" \/ status = "diverged" -> contained = false).
Proof.
  intros Hcompare. exists (str_in status ["behind"; "identical"]).
  split; [|split].
  - unfold contains_all_pr_commits, compare_status, bind.
    rewrite Hcompare. reflexivity.
  - apply str_in_behind_identical_true.
  - intros [-> | ->]; reflexivity.
Qed.

(** C3, as the script has it. An explicit token that is not the empty
    string is the one the client is built with, whatever the
    environment holds, and the first call [main] then sends to the host
    is the repository lookup by that client. *)
Theorem explicit_nonempty_token_wins {W : Type} (host : Host W)
    (repr : string -> string) (environ : gmap string string) (args : Args)
    (t : string) (st : State W) :
  arg_token args = Some t ->
  t <> "" ->
  get_github_client environ (arg_token args) st
  = (inr {| login_or_token := Some t |}, st)
  /\ exists (r : ApiResult unit) (rest : list NetCall),
       network (snd (main host repr environ args st))
       = network st
           ++ CallGetRepo {| login_or_token := Some t |} (arg_repo args) r
           :: rest.
Proof.
  intros Harg Hne.
  assert (Htoken : or_else (arg_token args)
                     (read_token_from_environment environ) = Some t).
  { unfold or_else. rewrite Harg.
    apply truthy_Some in Hne. rewrite Hne. reflexivity. }
  assert (Hclient : get_github_client environ (arg_token args) st
                    = (inr {| login_or_token := Some t |}, st)).
  { rewrite <- Htoken. apply get_github_client_found.
    rewrite Htoken. apply truthy_Some. exact Hne. }
  split; [exact Hclient|].
  unfold main. unfold bind at 1. rewrite Hclient. run_script.
  destruct (host_get_repo host (world st) {| login_or_token := Some t |}
              (arg_repo args)) as [w1 [e|[]]]; simpl.
  - exists (ApiError e), []. reflexivity.
  - destruct (host_get_pulls host w1 _ (arg_state args)) as [w2 pulls].
    unfold for_pr_in_pulls, bind.
    match goal with
    | |- context [for_pr_in host repr ?repo args ?prs ?counts ?st0] =>
        destruct (for_pr_in_observed host repr repo args prs counts st0)
          as (obs & st' & Hloop & _ & _ & _ & _ & Hnet);
        rewrite Hloop
    end.
    exists (ApiOk tt). eexists.
    destruct (broke pulls); unfold raise, ret; simpl; rewrite Hnet; simpl;
      rewrite <- !app_assoc; simpl; reflexivity.
Qed.

(** C5. When neither [--token] nor any of the four environment
    variables yields a value, [main] stops with [SystemExit(2)] right
    after printing the error to standard error: the exit status is 2,
    nothing is sent to the host, whose world is untouched, and nothing is
    printed to standard output. *)
Theorem no_token_exits_before_network {W : Type} (host : Host W)
    (repr : string -> string) (environ : gmap string string) (args : Args)
    (st : State W) :
  arg_token args = None \/ arg_token args = Some "" ->
  (forall v : string,
     v ∈ candidate_env_vars ->
     environ !! v = None \/ environ !! v = Some "") ->
  main host repr environ args st
  = (inl (SystemExit 2),
     {| world := world st; stdout := stdout st;
        stderr := stderr st ++ [no_token_message];
        network := network st |})
  /\ exit_status (fst (main host repr environ args st)) = 2%Z.
Proof.
  intros Hexplicit Henv.
  assert (Hmain : main host repr environ args st
                  = (inl (SystemExit 2), refused st)).
  { unfold main. unfold bind at 1.
    rewrite get_github_client_refused; [reflexivity|].
    apply no_token_source; assumption. }
  rewrite Hmain. split; reflexivity.
Qed.

(** C10. [--token] given as the empty string does not take precedence:
    the client is resolved, and the whole of [main] runs, exactly as
    without [--token]; a token found in the environment is the one
    used; and when no environment variable holds a non-empty value the
    run stops with status 2. *)
Theorem empty_token_is_no_token {W : Type} (host : Host W)
    (repr : string -> string) (environ : gmap string string) (args : Args)
    (st : State W) :
  arg_token args = Some "" ->
  get_github_client environ (arg_token args) st
  = get_github_client environ None st
  /\ main host repr environ args st
     = main host repr environ (without_token args) st
  /\ (forall t : string,
        read_token_from_environment environ = Some t ->
        get_github_client environ (arg_token args) st
        = (inr {| login_or_token := Some t |}, st))
  /\ ((forall v : string,
         v ∈ candidate_env_vars ->
         environ !! v = None \/ environ !! v = Some "") ->
       main host repr environ args st = (inl (SystemExit 2), refused st)
       /\ exit_status (fst (main host repr environ args st)) = 2%Z).
Proof.
  intros Harg. rewrite Harg.
  assert (Hsame : get_github_client environ (Some "") st
                  = get_github_client environ None st) by reflexivity.
  split; [exact Hsame|]. split; [|split].
  - unfold main, bind.
    cbn [without_token arg_repo arg_branch arg_state arg_token].
    rewrite Harg, Hsame.
    destruct (get_github_client environ None st) as [[e|gh] st1];
      [reflexivity|].
    destruct (try_except (get_repo host gh (arg_repo args)) st1)
      as [[e|[e|repo]] st2]; try reflexivity.
    destruct (print ("Repository: " +:+ arg_repo args) st2) as [[e|[]] st3];
      [reflexivity|].
    destruct (print ("Target branch: " +:+ arg_branch args) st3)
      as [[e|[]] st4]; [reflexivity|].
    destruct (print ("PR state: " +:+ arg_state args) st4) as [[e|[]] st5];
      [reflexivity|].
    destruct (get_pulls host repo (arg_state args) st5) as [[e|pulls] st6];
      [reflexivity|].
    unfold for_pr_in_pulls, bind.
    rewrite for_pr_in_without_token. reflexivity.
  - intros t Ht. unfold get_github_client, or_else. simpl. rewrite Ht.
    pose proof (read_token_truthy environ t Ht) as Hne.
    apply truthy_Some in Hne. rewrite Hne. reflexivity.
  - intros Henv.
    assert (Hmain : main host repr environ args st
                    = (inl (SystemExit 2), refused st)).
    { unfold main. unfold bind at 1.
      rewrite get_github_client_refused; [reflexivity|].
      apply no_token_source; [right; exact Harg|exact Henv]. }
    rewrite Hmain. split; reflexivity.
Qed.

(** C3, as stated, fails on the empty string: with [--token ""] and
    GITHUB_TOKEN set, the client is built with the value of GITHUB_TOKEN,
    not with the explicit token. *)
Lemma empty_explicit_token_is_not_used :
  get_github_client {[ "GITHUB_TOKEN" := "from-env" ]} (Some "") (fresh tt)
  = (inr {| login_or_token := Some "from-env" |}, fresh tt)
  /\ login_or_token {| login_or_token := Some "from-env" |} <> Some "".
Proof.
  split; [vm_compute; reflexivity|discriminate].
Qed.

(** ** Whole runs *)

Section Runs.

Context {W : Type}.
Variable host : Host W.
Variable repr : string -> string.
Variable environ : gmap string string.
Variable args : Args.

(** A run that reaches the loop and whose listing ends normally
    returns; its output is the header, the lines of one observation
    per listed pull request, and the totals. *)
Lemma main_observed (st : State W) (repo : Repository) (w : W)
    (pulls : Listing) :
  reaches_loop host environ args st repo w pulls ->
  broke pulls = None ->
  exists (obs : list Observed) (st' : State W),
    main host repr environ args st = (inr tt, st')
    /\ map obs_pr obs = yielded pulls
    /\ Forall comment_iff_contained obs
    /\ stdout st'
       = stdout st ++ header args ++ flat_map (obs_stdout repr) obs
           ++ [done_line (length (yielded pulls))
                 (length (List.filter commented obs))]
    /\ stderr st' = stderr st ++ flat_map obs_stderr obs
    /\ network st'
       = network st
           ++ [CallGetRepo (client repo) (arg_repo args) (ApiOk tt);
               CallGetPulls repo (arg_state args)]
           ++ flat_map (obs_calls repo args) obs.
Proof.
  intros (Htoken & -> & w1 & Hrepo & Hpulls) Hbroke.
  unfold main. unfold bind at 1.
  rewrite (get_github_client_found environ (arg_token args) st Htoken).
  run_script. rewrite Hrepo. simpl. rewrite Hpulls.
  unfold for_pr_in_pulls, bind. rewrite Hbroke.
  match goal with
  | |- context [for_pr_in host repr ?repo args ?prs ?counts ?st0] =>
      destruct (for_pr_in_observed host repr repo args prs counts st0)
        as (obs & st' & Hloop & Hprs & Hwf & Hout & Herr & Hnet);
      rewrite Hloop
  end.
  simpl in Hout, Herr, Hnet |- *.
  exists obs. eexists. split; [reflexivity|]. simpl.
  rewrite Hout, Herr, Hnet. unfold header.
  rewrite <- !app_assoc. simpl. repeat split; auto.
Qed.

(** When the listing breaks after the pull requests it yielded, the
    exception leaves [main]: the yielded pull requests have been handled,
    and no totals line is printed. *)
Lemma main_broken_listing (st : State W) (repo : Repository) (w : W)
    (pulls : Listing) (listing_error : string) :
  reaches_loop host environ args st repo w pulls ->
  broke pulls = Some listing_error ->
  exists (obs : list Observed) (st' : State W),
    main host repr environ args st = (inl (Exception listing_error), st')
    /\ map obs_pr obs = yielded pulls
    /\ stdout st'
       = stdout st ++ header args ++ flat_map (obs_stdout repr) obs.
Proof.
  intros (Htoken & -> & w1 & Hrepo & Hpulls) Hbroke.
  unfold main. unfold bind at 1.
  rewrite (get_github_client_found environ (arg_token args) st Htoken).
  run_script. rewrite Hrepo. simpl. rewrite Hpulls.
  unfold for_pr_in_pulls, bind. rewrite Hbroke.
  match goal with
  | |- context [for_pr_in host repr ?repo args ?prs ?counts ?st0] =>
      destruct (for_pr_in_observed host repr repo args prs counts st0)
        as (obs & st' & Hloop & Hprs & _ & Hout & _);
      rewrite Hloop
  end.
  simpl in Hout |- *.
  exists obs, st'. split; [reflexivity|]. split; [exact Hprs|].
  rewrite Hout. unfold header. rewrite <- !app_assoc. reflexivity.
Qed.

(** C6. In a run that reaches the loop and whose listing ends
    normally, whatever the host answers to the comparisons and to the
    comments, [main] returns (exit status 0) and the last line of
    standard output is the totals line, whose processed count is the
    number of pull requests the listing yielded. *)
Theorem processed_count_is_listing_length (st : State W)
    (repo : Repository) (w : W) (pulls : Listing) :
  reaches_loop host environ args st repo w pulls ->
  broke pulls = None ->
  exists (commented_count : nat) (st' : State W),
    main host repr environ args st = (inr tt, st')
    /\ exit_status (fst (main host repr environ args st)) = 0%Z
    /\ last (stdout st')
       = Some (done_line (length (yielded pulls)) commented_count).
Proof.
  intros Hreach Hbroke.
  destruct (main_observed st repo w pulls Hreach Hbroke)
    as (obs & st' & Hmain & _ & _ & Hout & _).
  exists (length (List.filter commented obs)), st'.
  rewrite Hmain, Hout, !app_assoc, last_snoc.
  repeat split; reflexivity.
Qed.

(** C7. In such a run the commented count of the totals line is the
    number of listed pull requests whose comparison returned identical
    or behind and whose comment the host accepted, where the
    observations are those the network log records: one comparison
    per pull request, followed by a comment exactly when the pull
    request was classified as contained. *)
Theorem commented_count_is_successful_comments (st : State W)
    (repo : Repository) (w : W) (pulls : Listing) :
  reaches_loop host environ args st repo w pulls ->
  broke pulls = None ->
  exists (obs : list Observed) (st' : State W),
    main host repr environ args st = (inr tt, st')
    /\ map obs_pr obs = yielded pulls
    /\ Forall comment_iff_contained obs
    /\ network st'
       = network st
           ++ [CallGetRepo (client repo) (arg_repo args) (ApiOk tt);
               CallGetPulls repo (arg_state args)]
           ++ flat_map (obs_calls repo args) obs
    /\ last (stdout st')
       = Some (done_line (length (yielded pulls))
                 (length (List.filter commented obs))).
Proof.
  intros Hreach Hbroke.
  destruct (main_observed st repo w pulls Hreach Hbroke)
    as (obs & st' & Hmain & Hprs & Hwf & Hout & _ & Hnet).
  exists obs, st'. repeat split; try assumption.
  rewrite Hout, !app_assoc. apply last_snoc.
Qed.


End Runs.


(** ** Failures inside the loop *)

Section Failures.

Context {W : Type}.
Variable host : Host W.
Variable repr : string -> string.
Variable repo : Repository.
Variable args : Args.

(** C2. Let the loop have handled the pull requests [pre] and let the
    comparison for the next one, [pr], fail. Then the failure is
    printed to standard error, the pull request is counted, and the
    loop goes on with the rest of the listing, [post], exactly as a
    fresh loop over [post] would: it returns, every pull request of
    [post] is counted, has its comparison sent to the host, and is
    commented on exactly when it is classified as contained. *)
Theorem compare_failure_does_not_stop_the_loop
    (pre post : list PullRequest) (pr : PullRequest)
    (counts : nat * nat) (st st_pre : State W) (p c : nat) (w : W)
    (e : string) :
  for_pr_in host repr repo args pre counts st = (inr (p, c), st_pre) ->
  host_compare host (world st_pre) repo (arg_branch args) (sha (head pr))
  = (w, ApiError e) ->
  let st_pr :=
    {| world := w;
       stdout := stdout st_pre;
       stderr := stderr st_pre ++ [compare_failed_message pr e];
       network := network st_pre
                    ++ [CallCompare repo (arg_branch args) (sha (head pr))
                          (ApiError e)] |} in
  for_pr_in host repr repo args (pre ++ pr :: post) counts st
  = for_pr_in host repr repo args post (S p, c) st_pr
  /\ exists (obs : list Observed) (st' : State W),
       for_pr_in host repr repo args post (S p, c) st_pr
       = (inr (S p + length post, c + length (List.filter commented obs)),
          st')
       /\ map obs_pr obs = post
       /\ Forall comment_iff_contained obs
       /\ network st'
          = network st_pr ++ flat_map (obs_calls repo args) obs
       /\ stdout st' = stdout st_pre ++ flat_map (obs_stdout repr) obs
       /\ stderr st'
          = stderr st_pre ++ [compare_failed_message pr e]
              ++ flat_map obs_stderr obs.
Proof.
  intros Hpre Hcompare st_pr. split.
  - rewrite for_pr_in_app. unfold bind at 1. rewrite Hpre.
    simpl for_pr_in. unfold bind at 1.
    replace (loop_body host repr repo args (p, c) pr st_pre)
      with (@inr exn _ (S p, c), st_pr); [reflexivity|].
    run_script. rewrite Hcompare. reflexivity.
  - destruct (for_pr_in_observed host repr repo args post (S p, c) st_pr)
      as (obs & st' & Hloop & Hprs & Hwf & Hout & Herr & Hnet).
    exists obs, st'. simpl in Hloop, Hout, Herr.
    rewrite <- app_assoc in Herr. repeat split; assumption.
Qed.

(** C9. Let the loop have handled the pull requests [pre], let the
    next one, [pr], be classified as contained (its comparison returns
    identical or behind) and let posting the comment raise. Then the
    line of [pr] on standard output has the outcome comment_failed,
    the error is printed to standard error with the number of [pr],
    the processed count goes up by one and the commented count stays,
    and the loop goes on with the rest of the listing, [post], and
    returns. *)
Theorem comment_failure_is_recorded_and_skipped
    (pre post : list PullRequest) (pr : PullRequest)
    (counts : nat * nat) (st st_pre : State W) (p c : nat) (w1 w2 : W)
    (status e : string) :
  for_pr_in host repr repo args pre counts st = (inr (p, c), st_pre) ->
  host_compare host (world st_pre) repo (arg_branch args) (sha (head pr))
  = (w1, ApiOk status) ->
  status = "identical" \/ status = "behind" ->
  host_create_issue_comment host w1 pr (arg_status args)
  = (w2, ApiError e) ->
  let st_pr :=
    {| world := w2;
       stdout := stdout st_pre
                   ++ [summary_line repr pr true "comment_failed"];
       stderr := stderr st_pre ++ [comment_failed_message pr e];
       network := network st_pre
                    ++ [CallCompare repo (arg_branch args) (sha (head pr))
                          (ApiOk status);
                        CallCreateIssueComment pr (arg_status args)
                          (ApiError e)] |} in
  loop_body host repr repo args (p, c) pr st_pre = (inr (S p, c), st_pr)
  /\ for_pr_in host repr repo args (pre ++ pr :: post) counts st
     = for_pr_in host repr repo args post (S p, c) st_pr
  /\ exists (c' : nat) (st' : State W),
       for_pr_in host repr repo args post (S p, c) st_pr
       = (inr (S p + length post, c'), st').
Proof.
  intros Hpre Hcompare Hstatus Hcomment st_pr.
  assert (Hbody : loop_body host repr repo args (p, c) pr st_pre
                  = (inr (S p, c), st_pr)).
  { run_script. rewrite Hcompare. simpl.
    apply str_in_behind_identical_true in Hstatus. rewrite Hstatus. simpl.
    rewrite Hcomment. simpl. unfold st_pr.
    rewrite <- app_assoc. reflexivity. }
  split; [exact Hbody|]. split.
  - rewrite for_pr_in_app. unfold bind at 1. rewrite Hpre.
    simpl for_pr_in. unfold bind at 1. rewrite Hbody. reflexivity.
  - destruct (for_pr_in_observed host repr repo args post (S p, c) st_pr)
      as (obs & st' & Hloop & _).
    exists (c + length (List.filter commented obs)), st'. exact Hloop.
Qed.

End Failures.

(** ** The theorems at the sample run *)

Lemma sample_reaches_loop :
  reaches_loop Sample.host Sample.environ (Sample.args None) (fresh 0)
    Sample.repo 2 Sample.listing.
Proof.
  unfold reaches_loop. split; [reflexivity|]. split; [reflexivity|].
  exists 1. split; reflexivity.
Defined.

Lemma sample_no_env_token (v : string) :
  v ∈ candidate_env_vars ->
  Sample.only_empty_gh_token !! v = None
  \/ Sample.only_empty_gh_token !! v = Some "".
Proof.
  intros Hv. unfold candidate_env_vars in Hv.
  repeat (apply elem_of_cons in Hv as [->|Hv];
          [vm_compute; auto|]).
  inversion Hv.
Defined.

Lemma contains_all_pr_commits_by_status_witness :
  contains_all_pr_commits Sample.host Sample.repo "release/qa" Sample.pr3
    (fresh 0)
  = (inr true,
     sent (fresh 0) 1
       (CallCompare Sample.repo "release/qa" "behind" (ApiOk "behind")))
  /\ contains_all_pr_commits Sample.host Sample.repo "release/qa" Sample.pr2
       (fresh 0)
     = (inr false,
        sent (fresh 0) 1
          (CallCompare Sample.repo "release/qa" "ahead" (ApiOk "ahead"))).
Proof.
  split.
  - destruct (contains_all_pr_commits_by_status Sample.host Sample.repo
                "release/qa" Sample.pr3 (fresh 0) 1 "behind" eq_refl)
      as (contained & Hrun & Hiff & _).
    assert (Htrue : contained = true) by (apply Hiff; right; reflexivity).
    rewrite Htrue in Hrun. exact Hrun.
  - destruct (contains_all_pr_commits_by_status Sample.host Sample.repo
                "release/qa" Sample.pr2 (fresh 0) 1 "ahead" eq_refl)
      as (contained & Hrun & _ & Hfalse).
    rewrite (Hfalse (or_introl eq_refl)) in Hrun. exact Hrun.
Defined.

Lemma explicit_nonempty_token_wins_witness :
  get_github_client Sample.only_github_token (Some "s3cr3t") (fresh 0)
  = (inr Sample.gh, fresh 0)
  /\ exists (r : ApiResult unit) (rest : list NetCall),
       network (snd (main Sample.host Sample.repr Sample.only_github_token
                       (Sample.args (Some "s3cr3t")) (fresh 0)))
       = [] ++ CallGetRepo Sample.gh "acme/widgets" r :: rest.
Proof.
  apply (explicit_nonempty_token_wins Sample.host Sample.repr
           Sample.only_github_token (Sample.args (Some "s3cr3t")) "s3cr3t"
           (fresh 0)).
  - reflexivity.
  - discriminate.
Defined.

Lemma no_token_exits_before_network_witness :
  main Sample.host Sample.repr Sample.only_empty_gh_token (Sample.args None)
    (fresh 0)
  = (inl (SystemExit 2),
     {| world := 0; stdout := []; stderr := [no_token_message];
        network := [] |})
  /\ exit_status (fst (main Sample.host Sample.repr Sample.only_empty_gh_token
                         (Sample.args None) (fresh 0))) = 2%Z.
Proof.
  apply (no_token_exits_before_network Sample.host Sample.repr
           Sample.only_empty_gh_token (Sample.args None) (fresh 0)).
  - left. reflexivity.
  - exact sample_no_env_token.
Defined.

Lemma empty_token_is_no_token_witness :
  get_github_client Sample.environ (Some "") (fresh 0)
  = (inr Sample.gh, fresh 0)
  /\ main Sample.host Sample.repr Sample.only_empty_gh_token
       (Sample.args (Some "")) (fresh 0)
     = (inl (SystemExit 2), refused (fresh 0)).
Proof.
  split.
  - destruct (empty_token_is_no_token Sample.host Sample.repr Sample.environ
                (Sample.args (Some "")) (fresh 0) eq_refl)
      as (_ & _ & Hfound & _).
    apply Hfound. reflexivity.
  - destruct (empty_token_is_no_token Sample.host Sample.repr
                Sample.only_empty_gh_token (Sample.args (Some "")) (fresh 0)
                eq_refl)
      as (_ & _ & _ & Hnone).
    apply Hnone. exact sample_no_env_token.
Defined.

Lemma processed_count_is_listing_length_witness :
  exists (commented_count : nat) (st' : State nat),
    main Sample.host Sample.repr Sample.environ (Sample.args None) (fresh 0)
    = (inr tt, st')
    /\ exit_status (fst (main Sample.host Sample.repr Sample.environ
                           (Sample.args None) (fresh 0))) = 0%Z
    /\ last (stdout st') = Some (done_line 4 commented_count).
Proof.
  exact (processed_count_is_listing_length Sample.host Sample.repr
           Sample.environ (Sample.args None) (fresh 0) Sample.repo 2
           Sample.listing sample_reaches_loop eq_refl).
Defined.

Lemma commented_count_is_successful_comments_witness :
  exists (obs : list Observed) (st' : State nat),
    main Sample.host Sample.repr Sample.environ (Sample.args None) (fresh 0)
    = (inr tt, st')
    /\ map obs_pr obs = [Sample.pr1; Sample.pr2; Sample.pr3; Sample.pr4]
    /\ Forall comment_iff_contained obs
    /\ network st'
       = [] ++ [CallGetRepo Sample.gh "acme/widgets" (ApiOk tt);
                CallGetPulls Sample.repo "open"]
            ++ flat_map (obs_calls Sample.repo (Sample.args None)) obs
    /\ last (stdout st')
       = Some (done_line 4 (length (List.filter commented obs))).
Proof.
  exact (commented_count_is_successful_comments Sample.host Sample.repr
           Sample.environ (Sample.args None) (fresh 0) Sample.repo 2
           Sample.listing sample_reaches_loop eq_refl).
Defined.


Lemma compare_failure_does_not_stop_the_loop_witness :
  let st_pr :=
    {| world := 3;
       stdout := stdout Sample.after_pr1;
       stderr := stderr Sample.after_pr1
                   ++ [compare_failed_message Sample.pr4
                         "404 No common ancestor"];
       network := network Sample.after_pr1
                    ++ [CallCompare Sample.repo "release/qa" "gone"
                          (ApiError "404 No common ancestor")] |} in
  Sample.loop ([Sample.pr1] ++ Sample.pr4 :: [Sample.pr2; Sample.pr3])
    (0, 0) (fresh 0)
  = Sample.loop [Sample.pr2; Sample.pr3] (2, 0) st_pr
  /\ exists (obs : list Observed) (st' : State nat),
       Sample.loop [Sample.pr2; Sample.pr3] (2, 0) st_pr
       = (inr (2 + 2, 0 + length (List.filter commented obs)), st')
       /\ map obs_pr obs = [Sample.pr2; Sample.pr3]
       /\ Forall comment_iff_contained obs
       /\ network st'
          = network st_pr
              ++ flat_map (obs_calls Sample.repo (Sample.args None)) obs
       /\ stdout st'
          = stdout Sample.after_pr1 ++ flat_map (obs_stdout Sample.repr) obs
       /\ stderr st'
          = stderr Sample.after_pr1
              ++ [compare_failed_message Sample.pr4 "404 No common ancestor"]
              ++ flat_map obs_stderr obs.
Proof.
  exact (compare_failure_does_not_stop_the_loop Sample.host Sample.repr
           Sample.repo (Sample.args None) [Sample.pr1]
           [Sample.pr2; Sample.pr3] Sample.pr4 (0, 0) (fresh 0)
           Sample.after_pr1 1 0 3 "404 No common ancestor" eq_refl eq_refl).
Defined.

Lemma comment_failure_is_recorded_and_skipped_witness :
  let st_pr :=
    {| world := 3;
       stdout := stdout Sample.after_pr2
                   ++ [summary_line Sample.repr Sample.pr1 true
                         "comment_failed"];
       stderr := stderr Sample.after_pr2
                   ++ [comment_failed_message Sample.pr1 "403 Forbidden"];
       network := network Sample.after_pr2
                    ++ [CallCompare Sample.repo "release/qa" "identical"
                          (ApiOk "identical");
                        CallCreateIssueComment Sample.pr1 "in qa"
                          (ApiError "403 Forbidden")] |} in
  loop_body Sample.host Sample.repr Sample.repo (Sample.args None) (1, 0)
    Sample.pr1 Sample.after_pr2
  = (inr (2, 0), st_pr)
  /\ Sample.loop ([Sample.pr2] ++ Sample.pr1 :: [Sample.pr3; Sample.pr4])
       (0, 0) (fresh 0)
     = Sample.loop [Sample.pr3; Sample.pr4] (2, 0) st_pr
  /\ exists (c' : nat) (st' : State nat),
       Sample.loop [Sample.pr3; Sample.pr4] (2, 0) st_pr
       = (inr (2 + 2, c'), st').
Proof.
  exact (comment_failure_is_recorded_and_skipped Sample.host Sample.repr
           Sample.repo (Sample.args None) [Sample.pr2]
           [Sample.pr3; Sample.pr4] Sample.pr1 (0, 0) (fresh 0)
           Sample.after_pr2 1 0 2 3 "identical" "403 Forbidden"
           eq_refl eq_refl (or_introl eq_refl) eq_refl).
Defined.

(** * Further properties of the script *)

(** ** Token resolution *)

Lemma for_env_var_agree (env1 env2 : gmap string string)
    (vars : list string) :
  (forall v : string, v ∈ vars -> env1 !! v = env2 !! v) ->
  for_env_var env1 vars = for_env_var env2 vars.
Proof.
  induction vars as [|v0 rest IH]; intros Hagree; simpl.
  - reflexivity.
  - rewrite (Hagree v0) by left.
    destruct (truthy (env2 !! v0)); [reflexivity|].
    apply IH. intros v Hv. apply Hagree. now right.
Qed.

(** X1. The lookup reads the four candidate variables and nothing else:
    two environments that agree on GITHUB_TOKEN, GH_TOKEN, GITHUB_PAT
    and TOKEN give the same token, whatever else they hold. *)
Theorem read_token_depends_only_on_candidates
    (env1 env2 : gmap string string) :
  (forall v : string, v ∈ candidate_env_vars -> env1 !! v = env2 !! v) ->
  read_token_from_environment env1 = read_token_from_environment env2.
Proof.
  apply for_env_var_agree.
Qed.

(** X2. [get_github_client] has two outcomes only: it returns, without
    printing or sending anything, a client built with a non-empty
    token, or it prints the missing-token error to standard error and
    raises [SystemExit(2)].  No client is ever built with [None] or
    with the empty string. *)
Theorem get_github_client_token_or_exit {W : Type}
    (environ : gmap string string) (explicit_token : option string)
    (st : State W) :
  (exists t : string,
     t <> ""
     /\ get_github_client environ explicit_token st
        = (inr {| login_or_token := Some t |}, st))
  \/ get_github_client environ explicit_token st
     = (inl (SystemExit 2), refused st).
Proof.
  destruct (truthy (or_else explicit_token
                      (read_token_from_environment environ))) eqn:Htoken.
  - left. pose proof Htoken as Hfound.
    apply truthy_true in Htoken as (t & Ht & Hne).
    exists t. split; [exact Hne|].
    rewrite <- Ht. apply get_github_client_found. exact Hfound.
  - right. apply get_github_client_refused. exact Htoken.
Qed.

(** X3. With a non-empty [--token] the environment plays no part in the
    run: [main] does the same in any two environments. *)
Theorem explicit_token_ignores_environment {W : Type} (host : Host W)
    (repr : string -> string) (env1 env2 : gmap string string)
    (args : Args) (t : string) (st : State W) :
  arg_token args = Some t ->
  t <> "" ->
  main host repr env1 args st = main host repr env2 args st.
Proof.
  intros Harg Hne. apply truthy_Some in Hne.
  assert (Hclient : forall environ : gmap string string,
            get_github_client environ (arg_token args) st
            = (inr {| login_or_token := Some t |}, st)).
  { intros environ.
    assert (Hor : or_else (arg_token args)
                    (read_token_from_environment environ) = Some t)
      by (unfold or_else; rewrite Harg, Hne; reflexivity).
    rewrite <- Hor. apply get_github_client_found.
    rewrite Hor. exact Hne. }
  unfold main, bind. rewrite (Hclient env1), (Hclient env2). reflexivity.
Qed.

(** ** The classifier *)

(** X4. The classifier does not swallow a failed comparison: when the
    host's comparison raises, [contains_all_pr_commits] raises the same
    exception, the call being logged, so a failure is never reported as
    not contained. *)
Theorem contains_all_pr_commits_raises_on_failure {W : Type}
    (host : Host W) (repo : Repository) (target_branch : string)
    (pr : PullRequest) (st : State W) (w : W) (e : string) :
  host_compare host (world st) repo target_branch (sha (head pr))
  = (w, ApiError e) ->
  contains_all_pr_commits host repo target_branch pr st
  = (inl (Exception e),
     sent st w (CallCompare repo target_branch (sha (head pr)) (ApiError e)))
  /\ forall contained : bool,
       fst (contains_all_pr_commits host repo target_branch pr st)
       <> inr contained.
Proof.
  intros Hcompare.
  assert (Hrun : contains_all_pr_commits host repo target_branch pr st
                 = (inl (Exception e),
                    sent st w (CallCompare repo target_branch
                                 (sha (head pr)) (ApiError e)))).
  { unfold contains_all_pr_commits, compare_status, bind.
    rewrite Hcompare. reflexivity. }
  split; [exact Hrun|]. intros contained. rewrite Hrun. discriminate.
Qed.

(** ** Start of a run *)

(** X5. When a token is found but the host refuses the repository,
    [main] prints one error line naming the repository and the cause to
    standard error and raises [SystemExit(2)]: the lookup is the only
    call sent, and nothing is printed to standard output. *)
Theorem repo_access_failure_exits_2 {W : Type} (host : Host W)
    (repr : string -> string) (environ : gmap string string) (args : Args)
    (st : State W) (w : W) (e : string) :
  let token := or_else (arg_token args) (read_token_from_environment environ) in
  let gh := {| login_or_token := token |} in
  truthy token = true ->
  host_get_repo host (world st) gh (arg_repo args) = (w, ApiError e) ->
  main host repr environ args st
  = (inl (SystemExit 2),
     {| world := w;
        stdout := stdout st;
        stderr := stderr st ++ [repo_error_message (arg_repo args) e];
        network := network st
                     ++ [CallGetRepo gh (arg_repo args) (ApiError e)] |})
  /\ exit_status (fst (main host repr environ args st)) = 2%Z.
Proof.
  intros token gh Htoken Hrepo.
  assert (Hmain : main host repr environ args st
                  = (inl (SystemExit 2),
                     {| world := w;
                        stdout := stdout st;
                        stderr := stderr st
                                    ++ [repo_error_message (arg_repo args) e];
                        network := network st
                                     ++ [CallGetRepo gh (arg_repo args)
                                           (ApiError e)] |})).
  { unfold main. unfold bind at 1.
    rewrite (get_github_client_found environ (arg_token args) st Htoken).
    run_script. fold token. fold gh. rewrite Hrepo. reflexivity. }
  rewrite Hmain. split; reflexivity.
Qed.


(** X7. A listing that yields no pull request is not an error: the run
    prints the header and the totals line with both counts 0, prints
    nothing to standard error, sends the repository lookup and the
    listing and no other call, and returns. *)
Theorem empty_listing_prints_zero_totals {W : Type} (host : Host W)
    (repr : string -> string) (environ : gmap string string) (args : Args)
    (st : State W) (repo : Repository) (w : W) (pulls : Listing) :
  reaches_loop host environ args st repo w pulls ->
  yielded pulls = [] ->
  broke pulls = None ->
  main host repr environ args st
  = (inr tt,
     {| world := w;
        stdout := stdout st ++ header args ++ [done_line 0 0];
        stderr := stderr st;
        network := network st
                     ++ [CallGetRepo (client repo) (arg_repo args) (ApiOk tt);
                         CallGetPulls repo (arg_state args)] |}).
Proof.
  intros (Htoken & -> & w1 & Hrepo & Hpulls) Hnone Hbroke.
  unfold main. unfold bind at 1.
  rewrite (get_github_client_found environ (arg_token args) st Htoken).
  run_script. rewrite Hrepo. simpl. rewrite Hpulls.
  unfold for_pr_in_pulls, bind. rewrite Hnone, Hbroke. simpl.
  unfold header. rewrite <- !app_assoc. reflexivity.
Qed.

(** ** What the loop sends and prints *)

Section Log.

Variable repo : Repository.
Variable args : Args.

Lemma compare_requests_observed (obs : list Observed) :
  compare_requests (flat_map (obs_calls repo args) obs)
  = map (fun o : Observed => (repo, arg_branch args, sha (head (obs_pr o))))
      obs.
Proof.
  induction obs as [|o obs IH]; [reflexivity|].
  change (flat_map (obs_calls repo args) (o :: obs))
    with (obs_calls repo args o ++ flat_map (obs_calls repo args) obs).
  unfold compare_requests in *. rewrite flat_map_app, IH.
  unfold obs_calls. destruct (obs_comment o); reflexivity.
Qed.

Lemma comment_requests_observed (obs : list Observed) :
  comment_requests (flat_map (obs_calls repo args) obs)
  `sublist_of` map (fun o : Observed => (obs_pr o, arg_status args)) obs.
Proof.
  induction obs as [|o obs IH]; [constructor|].
  change (flat_map (obs_calls repo args) (o :: obs))
    with (obs_calls repo args o ++ flat_map (obs_calls repo args) obs).
  unfold comment_requests in *. rewrite flat_map_app.
  unfold obs_calls at 1. destruct (obs_comment o); simpl.
  - apply sublist_skip. exact IH.
  - apply sublist_cons. exact IH.
Qed.

Lemma comment_follows_contained_compare (obs : list Observed)
    (pr : PullRequest) (body : string) (r : ApiResult unit) :
  Forall comment_iff_contained obs ->
  In (CallCreateIssueComment pr body r) (flat_map (obs_calls repo args) obs) ->
  exists status : string,
    (status = "identical" \/ status = "behind")
    /\ In (CallCompare repo (arg_branch args) (sha (head pr)) (ApiOk status))
          (flat_map (obs_calls repo args) obs).
Proof.
  intros Hwf Hin. apply in_flat_map in Hin as (o & Ho & Hcall).
  apply List.Forall_forall with (x := o) in Hwf; [|exact Ho].
  unfold obs_calls in Hcall. destruct Hcall as [Hcall|Hcall]; [discriminate|].
  destruct (obs_comment o) as [r'|] eqn:Hcomment; [|contradiction].
  destruct Hcall as [Hcall|[]]. injection Hcall as <- _ _.
  unfold comment_iff_contained in Hwf. rewrite Hcomment in Hwf.
  destruct Hwf as [Hcontained _].
  specialize (Hcontained (ex_intro _ r' eq_refl)).
  unfold classified_contained in Hcontained.
  destruct (obs_compare o) as [e|status] eqn:Hcompare; [discriminate|].
  exists status. split.
  - apply orb_true_iff in Hcontained. rewrite !String.eqb_eq in Hcontained.
    exact Hcontained.
  - apply in_flat_map. exists o. split; [exact Ho|].
    unfold obs_calls. rewrite Hcompare. left. reflexivity.
Qed.

Lemma returned_comments_observed (obs : list Observed) :
  Forall comment_iff_contained obs ->
  length (List.filter is_returned_comment (flat_map (obs_calls repo args) obs))
  = length (List.filter commented obs).
Proof.
  induction 1 as [|o obs Hwf _ IH]; [reflexivity|].
  change (flat_map (obs_calls repo args) (o :: obs))
    with (obs_calls repo args o ++ flat_map (obs_calls repo args) obs).
  rewrite List.filter_app, length_app, IH. clear IH.
  simpl List.filter. unfold commented, obs_calls.
  unfold comment_iff_contained in Hwf.
  destruct (obs_comment o) as [[e|[]]|]; simpl.
  - rewrite andb_false_r. reflexivity.
  - destruct Hwf as [Hcontained _].
    rewrite (Hcontained (ex_intro _ (ApiOk tt) eq_refl)).
    destruct (obs_compare o); reflexivity.
  - rewrite andb_false_r. destruct (obs_compare o); reflexivity.
Qed.

Lemma returned_compares_observed (repr : string -> string)
    (obs : list Observed) :
  Forall comment_iff_contained obs ->
  length (List.filter is_returned_compare (flat_map (obs_calls repo args) obs))
  = length (flat_map (obs_stdout repr) obs).
Proof.
  induction 1 as [|o obs Hwf _ IH]; [reflexivity|].
  change (flat_map (obs_calls repo args) (o :: obs))
    with (obs_calls repo args o ++ flat_map (obs_calls repo args) obs).
  change (flat_map (obs_stdout repr) (o :: obs))
    with (obs_stdout repr o ++ flat_map (obs_stdout repr) obs).
  rewrite List.filter_app, !length_app, IH. clear IH.
  f_equal. unfold obs_calls, obs_stdout, obs_outcome.
  destruct (obs_compare o) as [e|status], (obs_comment o) as [[e'|[]]|];
    reflexivity.
Qed.

Lemma failed_calls_observed (obs : list Observed) :
  Forall comment_iff_contained obs ->
  length (List.filter is_failed_pr_call (flat_map (obs_calls repo args) obs))
  = length (flat_map obs_stderr obs).
Proof.
  induction 1 as [|o obs Hwf _ IH]; [reflexivity|].
  change (flat_map (obs_calls repo args) (o :: obs))
    with (obs_calls repo args o ++ flat_map (obs_calls repo args) obs).
  change (flat_map obs_stderr (o :: obs))
    with (obs_stderr o ++ flat_map obs_stderr obs).
  rewrite List.filter_app, !length_app, IH. clear IH.
  f_equal. unfold obs_calls, obs_stderr.
  unfold comment_iff_contained, classified_contained in Hwf.
  destruct (obs_compare o) as [e|status], (obs_comment o) as [[e'|[]]|];
    try reflexivity;
    destruct Hwf as [Hcontained _];
    specialize (Hcontained (ex_intro _ _ eq_refl)); discriminate.
Qed.

End Log.

Section Sent.

Context {W : Type}.
Variable host : Host W.
Variable repr : string -> string.
Variable environ : gmap string string.
Variable args : Args.

(** Whether the listing ends normally or breaks, a run that reaches the
    loop has sent the lookup, the listing, and the calls of one
    observation per yielded pull request. *)
Lemma main_calls_observed (st : State W) (repo : Repository) (w : W)
    (pulls : Listing) :
  reaches_loop host environ args st repo w pulls ->
  exists obs : list Observed,
    map obs_pr obs = yielded pulls
    /\ Forall comment_iff_contained obs
    /\ network (snd (main host repr environ args st))
       = network st
           ++ [CallGetRepo (client repo) (arg_repo args) (ApiOk tt);
               CallGetPulls repo (arg_state args)]
           ++ flat_map (obs_calls repo args) obs.
Proof.
  intros (Htoken & -> & w1 & Hrepo & Hpulls).
  unfold main. unfold bind at 1.
  rewrite (get_github_client_found environ (arg_token args) st Htoken).
  run_script. rewrite Hrepo. simpl. rewrite Hpulls.
  unfold for_pr_in_pulls, bind.
  match goal with
  | |- context [for_pr_in host repr ?repo args ?prs ?counts ?st0] =>
      destruct (for_pr_in_observed host repr repo args prs counts st0)
        as (obs & st' & Hloop & Hprs & Hwf & _ & _ & Hnet);
      rewrite Hloop
  end.
  simpl in Hnet. exists obs. split; [exact Hprs|]. split; [exact Hwf|].
  destruct (broke pulls); unfold raise, ret; simpl; rewrite Hnet;
    rewrite <- !app_assoc; reflexivity.
Qed.

(** X8. A run that reaches the loop asks the host for exactly one
    comparison per pull request the listing yields, in the order of the
    listing, each with base = the target branch and head = the pull
    request's head SHA: no pull request is skipped, none is compared
    twice, and nothing else is compared. *)
Theorem one_compare_per_listed_pr (st : State W) (repo : Repository)
    (w : W) (pulls : Listing) :
  reaches_loop host environ args st repo w pulls ->
  exists calls : list NetCall,
    network (snd (main host repr environ args st)) = network st ++ calls
    /\ compare_requests calls
       = map (fun pr : PullRequest =>
                (repo, arg_branch args, sha (head pr)))
           (yielded pulls).
Proof.
  intros Hreach.
  destruct (main_calls_observed st repo w pulls Hreach)
    as (obs & Hprs & _ & Hnet).
  eexists. split; [exact Hnet|].
  change (compare_requests
            ([CallGetRepo (client repo) (arg_repo args) (ApiOk tt);
              CallGetPulls repo (arg_state args)]
             ++ flat_map (obs_calls repo args) obs))
    with (compare_requests (flat_map (obs_calls repo args) obs)).
  rewrite compare_requests_observed, <- Hprs, map_map. reflexivity.
Qed.

(** X9. A run that reaches the loop comments only on pull requests of
    the listing, at most once per listed pull request and in the order
    of the listing, always with the status text of the command line as
    the body, and only on a pull request for whose head SHA the
    comparison against the target branch returned identical or
    behind. *)
Theorem comments_only_on_contained_listed_prs (st : State W)
    (repo : Repository) (w : W) (pulls : Listing) :
  reaches_loop host environ args st repo w pulls ->
  exists calls : list NetCall,
    network (snd (main host repr environ args st)) = network st ++ calls
    /\ comment_requests calls
       `sublist_of` map (fun pr : PullRequest => (pr, arg_status args))
                      (yielded pulls)
    /\ forall (pr : PullRequest) (body : string) (r : ApiResult unit),
         In (CallCreateIssueComment pr body r) calls ->
         exists status : string,
           (status = "identical" \/ status = "behind")
           /\ In (CallCompare repo (arg_branch args) (sha (head pr))
                    (ApiOk status)) calls.
Proof.
  intros Hreach.
  destruct (main_calls_observed st repo w pulls Hreach)
    as (obs & Hprs & Hwf & Hnet).
  eexists. split; [exact Hnet|]. split.
  - change (comment_requests
              ([CallGetRepo (client repo) (arg_repo args) (ApiOk tt);
                CallGetPulls repo (arg_state args)]
               ++ flat_map (obs_calls repo args) obs))
      with (comment_requests (flat_map (obs_calls repo args) obs)).
    rewrite <- Hprs, map_map. apply comment_requests_observed.
  - intros pr body r Hin.
    destruct Hin as [Hin|[Hin|Hin]]; [discriminate|discriminate|].
    destruct (comment_follows_contained_compare repo args obs pr body r
                Hwf Hin) as (status & Hstatus & Hcompare).
    exists status. split; [exact Hstatus|]. right. right. exact Hcompare.
Qed.

End Sent.

Section Accounting.

Context {W : Type}.
Variable host : Host W.
Variable repr : string -> string.
Variable repo : Repository.
Variable args : Args.

(** X10. Whatever the host answers, the loop never raises and its two
    counters move as follows: the processed count grows by the number
    of pull requests, the commented count grows by the number of
    comment calls the host accepted, which is at most the number of
    pull requests; so a commented count that starts no higher than the
    processed count never overtakes it. *)
Theorem loop_counters (prs : list PullRequest) (counts : nat * nat)
    (st : State W) :
  exists (commented_count : nat) (st' : State W) (calls : list NetCall),
    for_pr_in host repr repo args prs counts st
    = (inr (fst counts + length prs, commented_count), st')
    /\ network st' = network st ++ calls
    /\ commented_count
       = snd counts + length (List.filter is_returned_comment calls)
    /\ commented_count <= snd counts + length prs
    /\ (snd counts <= fst counts ->
        commented_count <= fst counts + length prs).
Proof.
  destruct (for_pr_in_observed host repr repo args prs counts st)
    as (obs & st' & Hloop & Hprs & Hwf & _ & _ & Hnet).
  exists (snd counts + length (List.filter commented obs)), st',
    (flat_map (obs_calls repo args) obs).
  assert (Hbound : length (List.filter commented obs) <= length prs).
  { rewrite <- Hprs, length_map. apply List.filter_length_le. }
  split; [exact Hloop|]. split; [exact Hnet|].
  rewrite returned_comments_observed by exact Hwf.
  repeat split; lia.
Qed.

(** X11. Every line the loop prints is accounted for by a call: it
    adds to standard output one line per comparison that returned, and
    to standard error one line per comparison or comment that raised.
    A loop in which no call fails leaves standard error as it was. *)
Theorem loop_line_accounting (prs : list PullRequest) (counts : nat * nat)
    (st : State W) :
  exists (st' : State W) (calls : list NetCall) (out err : list string),
    snd (for_pr_in host repr repo args prs counts st) = st'
    /\ network st' = network st ++ calls
    /\ stdout st' = stdout st ++ out
    /\ stderr st' = stderr st ++ err
    /\ length out = length (List.filter is_returned_compare calls)
    /\ length err = length (List.filter is_failed_pr_call calls)
    /\ (List.filter is_failed_pr_call calls = [] -> stderr st' = stderr st).
Proof.
  destruct (for_pr_in_observed host repr repo args prs counts st)
    as (obs & st' & Hloop & _ & Hwf & Hout & Herr & Hnet).
  exists st', (flat_map (obs_calls repo args) obs),
    (flat_map (obs_stdout repr) obs), (flat_map obs_stderr obs).
  rewrite Hloop.
  pose proof (failed_calls_observed repo args obs Hwf) as Hfailed.
  repeat split; try assumption.
  - symmetry. apply returned_compares_observed. exact Hwf.
  - symmetry. exact Hfailed.
  - intros Hnone. rewrite Hnone in Hfailed. simpl in Hfailed.
    symmetry in Hfailed. apply length_zero_iff_nil in Hfailed.
    rewrite Herr, Hfailed. apply app_nil_r.
Qed.

End Accounting.

(** ** The further properties at the sample runs *)

Lemma read_token_depends_only_on_candidates_witness :
  read_token_from_environment Edge.noisy_environ
  = read_token_from_environment Sample.environ.
Proof.
  apply (read_token_depends_only_on_candidates Edge.noisy_environ
           Sample.environ).
  intros v Hv. unfold candidate_env_vars in Hv.
  repeat (apply elem_of_cons in Hv as [->|Hv]; [vm_compute; reflexivity|]).
  inversion Hv.
Defined.

Lemma explicit_token_ignores_environment_witness :
  main Sample.host Sample.repr Sample.only_github_token
    (Sample.args (Some "s3cr3t")) (fresh 0)
  = main Sample.host Sample.repr Sample.only_empty_gh_token
      (Sample.args (Some "s3cr3t")) (fresh 0).
Proof.
  apply (explicit_token_ignores_environment Sample.host Sample.repr
           Sample.only_github_token Sample.only_empty_gh_token
           (Sample.args (Some "s3cr3t")) "s3cr3t" (fresh 0)).
  - reflexivity.
  - discriminate.
Defined.

Lemma contains_all_pr_commits_raises_on_failure_witness :
  contains_all_pr_commits Sample.host Sample.repo "release/qa" Sample.pr4
    (fresh 0)
  = (inl (Exception "404 No common ancestor"),
     sent (fresh 0) 1
       (CallCompare Sample.repo "release/qa" "gone"
          (ApiError "404 No common ancestor")))
  /\ forall contained : bool,
       fst (contains_all_pr_commits Sample.host Sample.repo "release/qa"
              Sample.pr4 (fresh 0))
       <> inr contained.
Proof.
  exact (contains_all_pr_commits_raises_on_failure Sample.host Sample.repo
           "release/qa" Sample.pr4 (fresh 0) 1 "404 No common ancestor"
           eq_refl).
Defined.

Lemma repo_access_failure_exits_2_witness :
  main Sample.host Sample.repr Sample.environ Edge.unknown_repo_args (fresh 0)
  = (inl (SystemExit 2),
     {| world := 1;
        stdout := [];
        stderr := [] ++ [repo_error_message "acme/gadgets" "404 Not Found"];
        network := [] ++ [CallGetRepo Sample.gh "acme/gadgets"
                            (ApiError "404 Not Found")] |})
  /\ exit_status (fst (main Sample.host Sample.repr Sample.environ
                         Edge.unknown_repo_args (fresh 0))) = 2%Z.
Proof.
  exact (repo_access_failure_exits_2 Sample.host Sample.repr Sample.environ
           Edge.unknown_repo_args (fresh 0) 1 "404 Not Found"
           eq_refl eq_refl).
Defined.

Lemma quiet_reaches_loop :
  reaches_loop Edge.quiet_host Sample.environ (Sample.args None) (fresh 0)
    Sample.repo 2 {| yielded := []; broke := None |}.
Proof.
  unfold reaches_loop. split; [reflexivity|]. split; [reflexivity|].
  exists 1. split; reflexivity.
Defined.

Lemma empty_listing_prints_zero_totals_witness :
  main Edge.quiet_host Sample.repr Sample.environ (Sample.args None) (fresh 0)
  = (inr tt,
     {| world := 2;
        stdout := [] ++ header (Sample.args None) ++ [done_line 0 0];
        stderr := [];
        network := [] ++ [CallGetRepo Sample.gh "acme/widgets" (ApiOk tt);
                          CallGetPulls Sample.repo "open"] |}).
Proof.
  exact (empty_listing_prints_zero_totals Edge.quiet_host Sample.repr
           Sample.environ (Sample.args None) (fresh 0) Sample.repo 2
           {| yielded := []; broke := None |}
           quiet_reaches_loop eq_refl eq_refl).
Defined.

Lemma one_compare_per_listed_pr_witness :
  exists calls : list NetCall,
    network (snd (main Sample.host Sample.repr Sample.environ
                    (Sample.args None) (fresh 0)))
    = [] ++ calls
    /\ compare_requests calls
       = [ (Sample.repo, "release/qa", "identical");
           (Sample.repo, "release/qa", "ahead");
           (Sample.repo, "release/qa", "behind");
           (Sample.repo, "release/qa", "gone") ].
Proof.
  exact (one_compare_per_listed_pr Sample.host Sample.repr Sample.environ
           (Sample.args None) (fresh 0) Sample.repo 2 Sample.listing
           sample_reaches_loop).
Defined.

Lemma comments_only_on_contained_listed_prs_witness :
  exists calls : list NetCall,
    network (snd (main Sample.host Sample.repr Sample.environ
                    (Sample.args None) (fresh 0)))
    = [] ++ calls
    /\ comment_requests calls
       `sublist_of` [ (Sample.pr1, "in qa"); (Sample.pr2, "in qa");
                      (Sample.pr3, "in qa"); (Sample.pr4, "in qa") ]
    /\ forall (pr : PullRequest) (body : string) (r : ApiResult unit),
         In (CallCreateIssueComment pr body r) calls ->
         exists status : string,
           (status = "identical" \/ status = "behind")
           /\ In (CallCompare Sample.repo "release/qa" (sha (head pr))
                    (ApiOk status)) calls.
Proof.
  exact (comments_only_on_contained_listed_prs Sample.host Sample.repr
           Sample.environ (Sample.args None) (fresh 0) Sample.repo 2
           Sample.listing sample_reaches_loop).
Defined.

(** ** A listing that breaks *)

Lemma done_line_not_summary_line (repr : string -> string)
    (p c : nat) (o : Observed) :
  ~ In (done_line p c) (obs_stdout repr o).
Proof.
  unfold obs_stdout. destruct (obs_outcome o) as [outcome|]; [|intros []].
  intros [Heq|[]]. unfold summary_line, done_line in Heq. discriminate.
Qed.

(** X12. The iteration over the listing is not guarded: when it raises
    after yielding some pull requests, the exception leaves [main]
    (exit status 1), the pull requests yielded so far have had their
    lines, and no totals line is printed. *)
Theorem broken_listing_prints_no_totals {W : Type} (host : Host W)
    (repr : string -> string) (environ : gmap string string) (args : Args)
    (st : State W) (repo : Repository) (w : W) (pulls : Listing)
    (listing_error : string) :
  reaches_loop host environ args st repo w pulls ->
  broke pulls = Some listing_error ->
  exists (st' : State W) (out : list string),
    main host repr environ args st = (inl (Exception listing_error), st')
    /\ exit_status (fst (main host repr environ args st)) = 1%Z
    /\ stdout st' = stdout st ++ out
    /\ forall p c : nat, ~ In (done_line p c) out.
Proof.
  intros Hreach Hbroke.
  destruct (main_broken_listing host repr environ args st repo w pulls
              listing_error Hreach Hbroke)
    as (obs & st' & Hmain & _ & Hout).
  exists st', (header args ++ flat_map (obs_stdout repr) obs).
  rewrite Hmain. repeat split; [exact Hout|].
  intros p c Hin. apply in_app_or in Hin as [Hin|Hin].
  - unfold header, done_line in Hin.
    destruct Hin as [Heq|[Heq|[Heq|[]]]]; discriminate.
  - apply in_flat_map in Hin as (o & _ & Hin).
    exact (done_line_not_summary_line repr p c o Hin).
Qed.

Lemma broken_reaches_loop :
  reaches_loop Edge.broken_host Sample.environ (Sample.args None) (fresh 0)
    Sample.repo 2 Edge.broken_listing.
Proof.
  unfold reaches_loop. split; [reflexivity|]. split; [reflexivity|].
  exists 1. split; reflexivity.
Defined.

Lemma broken_listing_prints_no_totals_witness :
  exists (st' : State nat) (out : list string),
    main Edge.broken_host Sample.repr Sample.environ (Sample.args None)
      (fresh 0)
    = (inl (Exception "502 Bad Gateway"), st')
    /\ exit_status (fst (main Edge.broken_host Sample.repr Sample.environ
                           (Sample.args None) (fresh 0))) = 1%Z
    /\ stdout st' = [] ++ out
    /\ forall p c : nat, ~ In (done_line p c) out.
Proof.
  exact (broken_listing_prints_no_totals Edge.broken_host Sample.repr
           Sample.environ (Sample.args None) (fresh 0) Sample.repo 2
           Edge.broken_listing "502 Bad Gateway" broken_reaches_loop eq_refl).
Defined.
